(** * codeinred.workers: the static-site edge handler

    A shallow embedding of the two worker scripts of the repository,

    - the handler with a separate [getProperties] classifier and two cache
      tables (module [Worker]), and
    - [workers-site/index.js], which classifies inline and has one cache
      table (module [WorkersSite]),

    over a small model of the JavaScript platform they run on (module [JS]):
    strings with [endsWith], [lastIndexOf] and [substr]; [Headers] as a finite
    map keyed by lower-cased names; [Response], [Request], [URL]; and the
    awaits on [getAssetFromKV] as nodes of a program tree that is run against
    an asset store. *)

From Stdlib Require Import ZArith Bool Ascii String List Lia.
From stdpp Require Import gmap strings.

Local Open Scope string_scope.
Local Open Scope Z_scope.

(* ===================================================================== *)
(** ** The platform *)
(* ===================================================================== *)

Module JS.

(** *** Strings

    A JavaScript string is a sequence of code units; indices are [Z] because
    [lastIndexOf] answers [-1] and [substr] accepts negative positions. *)

Definition str_length (s : string) : Z := Z.of_nat (String.length s).

(** [s.endsWith(t)] *)
Definition endsWith (s t : string) : bool :=
  let n := String.length s in
  let m := String.length t in
  (m <=? n)%nat && String.eqb (String.substring (n - m) m s) t.

(** [s.lastIndexOf(t)], scanning the suffixes of [s]; [i] is the index of the
    first code unit of the suffix at hand. An occurrence further right wins. *)
Fixpoint lastIndexOf_at (i : Z) (s t : string) : Z :=
  match s with
  | EmptyString => if String.prefix t EmptyString then i else -1
  | String _ s' =>
      let later := lastIndexOf_at (i + 1) s' t in
      if later =? -1 then (if String.prefix t s then i else -1) else later
  end.

Definition lastIndexOf (s t : string) : Z := lastIndexOf_at 0 s t.

(** [s.substr(start)]: a negative [start] counts from the end, and the
    position is clamped to the string. Nothing is thrown. *)
Definition substr (s : string) (start : Z) : string :=
  let len := str_length s in
  let from := if start <? 0 then Z.max (len + start) 0 else Z.min start len in
  String.substring (Z.to_nat from) (Z.to_nat (len - from)) s.

(** [list.includes(x)] on an array of strings. *)
Definition includes (l : list string) (x : string) : bool :=
  existsb (String.eqb x) l.

(** ASCII lower-casing, as header names are compared. *)
Definition lower_ascii (c : ascii) : ascii :=
  let n := nat_of_ascii c in
  if ((65 <=? n) && (n <=? 90))%nat then ascii_of_nat (n + 32) else c.

Fixpoint toLowerCase (s : string) : string :=
  match s with
  | EmptyString => EmptyString
  | String c s' => String (lower_ascii c) (toLowerCase s')
  end.

(** *** Thrown values

    What a [catch (e)] clause receives: [e.message] (possibly undefined) and
    the result of [e.toString()]. *)

Record JsError := {
  message : option string;
  toString : string
}.

(** [a || b] on a possibly undefined string [a]: [undefined] and the empty
    string are falsy. *)
Definition or_else (a : option string) (b : string) : string :=
  match a with
  | Some m => if String.eqb m "" then b else m
  | None => b
  end.

(** *** Headers

    A [Headers] object maps names to values and compares names without
    regard to case, so the map is keyed by the lower-cased name. *)

Abbreviation Headers := (gmap string string).

Definition Headers_set (h : Headers) (name value : string) : Headers :=
  <[toLowerCase name := value]> h.

Definition Headers_get (h : Headers) (name : string) : option string :=
  h !! toLowerCase name.

(** *** URL, Request, Response *)

Record URL := {
  href : string;
  origin : string
}.

Record Request := {
  url : string;
  method : string;
  request_headers : Headers
}.

(** [new Request(input, init)] with a request as [init]. *)
Definition Request_new (input : string) (init : Request) : Request :=
  {| url := input; method := method init; request_headers := request_headers init |}.

Record FetchEvent := {
  request : Request
}.

(** The body of a response is a stream (its bytes), or null. *)
Record Response := {
  status : Z;
  statusText : string;
  headers : Headers;
  body : option string
}.

Record ResponseInit := {
  init_status : option Z;
  init_statusText : option string;
  init_headers : option Headers
}.

Inductive BodyInit :=
| FromStream (bytes : string)
| FromString (text : string).

Definition BodyInit_bytes (b : BodyInit) : string :=
  match b with
  | FromStream bytes => bytes
  | FromString text => text
  end.

(** [new Response(body, init)]. A string body brings its content type, unless
    [init] already names one; a stream does not. *)
Definition Response_new (b : option BodyInit) (init : ResponseInit) : Response :=
  let h := default ∅ (init_headers init) in
  let h := match b with
           | Some (FromString _) =>
               match Headers_get h "Content-Type" with
               | None => Headers_set h "Content-Type" "text/plain;charset=UTF-8"
               | Some _ => h
               end
           | _ => h
           end in
  {| status := default 200 (init_status init);
     statusText := default "" (init_statusText init);
     headers := h;
     body := BodyInit_bytes <$> b |}.

(** A response passed where an init dictionary is expected: [status],
    [statusText] and [headers] are read off it. The object spread
    [{ ...response }] copies the same three members (they are own properties
    of the response in the runtime these scripts were written for). *)
Definition Response_as_init (r : Response) : ResponseInit :=
  {| init_status := Some (status r);
     init_statusText := Some (statusText r);
     init_headers := Some (headers r) |}.

Definition with_status (init : ResponseInit) (st : Z) : ResponseInit :=
  {| init_status := Some st;
     init_statusText := init_statusText init;
     init_headers := init_headers init |}.

Definition with_headers (r : Response) (h : Headers) : Response :=
  {| status := status r; statusText := statusText r; headers := h; body := body r |}.

(** [Response.redirect(url, status)] *)
Definition Response_redirect (u : URL) (st : Z) : Response :=
  {| status := st; statusText := "";
     headers := Headers_set ∅ "Location" (href u);
     body := None |}.

(** *** The asset handler's options *)

Record CacheControl := {
  bypassCache : bool
}.

Record Options := {
  mapRequestToAsset : option (Request -> JsError + Request);
  cacheControl : option CacheControl
}.

Definition no_options : Options :=
  {| mapRequestToAsset := None; cacheControl := None |}.

(** *** Async functions

    The body of an [async] function as a tree: it returns, throws, or awaits
    [getAssetFromKV(event, options)] and goes on with what the promise
    settles to. *)

Inductive Async (A : Type) : Type :=
| Resolve (a : A)
| Reject (e : JsError)
| Await (event : FetchEvent) (options : Options) (k : JsError + Response -> Async A).

Arguments Resolve {A} a.
Arguments Reject {A} e.
Arguments Await {A} event options k.

Fixpoint Async_bind {A B : Type} (f : A -> Async B) (p : Async A) : Async B :=
  match p with
  | Resolve a => f a
  | Reject e => Reject e
  | Await event options k => Await event options (fun r => Async_bind f (k r))
  end.

#[export] Instance Async_ret : MRet Async := fun _ a => Resolve a.
#[export] Instance Async_mbind : MBind Async := fun _ _ f p => Async_bind f p.

(** [try { p } catch (e) { h e }] *)
Fixpoint try_catch {A : Type} (p : Async A) (h : JsError -> Async A) : Async A :=
  match p with
  | Resolve a => Resolve a
  | Reject e => h e
  | Await event options k => Await event options (fun r => try_catch (k r) h)
  end.

(** A synchronous call that may throw. *)
Definition call {A : Type} (r : JsError + A) : Async A :=
  match r with
  | inl e => Reject e
  | inr a => Resolve a
  end.

(** [await getAssetFromKV(event, options)] *)
Definition getAssetFromKV (event : FetchEvent) (options : Options) : Async Response :=
  Await event options call.

(** The asset store: what [getAssetFromKV] settles to. *)
Definition AssetStore := FetchEvent -> Options -> JsError + Response.

Definition Fetch := (FetchEvent * Options)%type.

(** Running an async function against a store: the fetches made, in order,
    and the value returned or thrown. *)
Fixpoint run {A : Type} (store : AssetStore) (p : Async A) : list Fetch * (JsError + A) :=
  match p with
  | Resolve a => ([], inr a)
  | Reject e => ([], inl e)
  | Await event options k =>
      let '(fetches, outcome) := run store (k (store event options)) in
      ((event, options) :: fetches, outcome)
  end.

(** The same as a relation between a program, its fetches and its outcome. *)
Inductive runs {A : Type} (store : AssetStore) : Async A -> list Fetch -> JsError + A -> Prop :=
| runs_resolve a :
    runs store (Resolve a) [] (inr a)
| runs_reject e :
    runs store (Reject e) [] (inl e)
| runs_await event options k fetches outcome :
    runs store (k (store event options)) fetches outcome ->
    runs store (Await event options k) ((event, options) :: fetches) outcome.

End JS.

(* ===================================================================== *)
(** ** The worker with [getProperties] *)
(* ===================================================================== *)

Module Worker.
Import JS.

Definition DEBUG : bool := false.

Definition longTermCache : list string :=
  [".css"; ".ttf"; ".woff"; ".woff2"; ".js"; ".png"; ".jpg"; ".jpeg"; ".webp"; ".svg"].

Definition shortTermCache : list string :=
  [".ico"; ".json"].

(** [setCachePolicy(headers, extension)] updates [headers] in place; here it
    returns the updated map. *)
Definition setCachePolicy (headers : Headers) (extension : string) : Headers :=
  if includes longTermCache extension then
    Headers_set headers "Cache-Control" "max-age=31536000, public"
  else if includes shortTermCache extension then
    Headers_set headers "Cache-Control" "max-age=604800, public"
  else headers.

Record UrlProperties := {
  isFile : bool;
  fileExtension : string;
  missingSlash : bool;
  atRoot : bool
}.

Definition getProperties (url_string : string) : UrlProperties :=
  let endsWithSlash := endsWith url_string "/" in
  let isFile := false in
  let missingSlash := false in
  let fileExtension := "" in
  let atRoot := false in
  let '(isFile, fileExtension, missingSlash, atRoot) :=
    if negb endsWithSlash then
      let nameStartIndex := lastIndexOf url_string "/" in
      let atRoot := nameStartIndex =? -1 in
      if negb atRoot then
        let filename := substr url_string nameStartIndex in
        let extStartIndex := lastIndexOf filename "." in
        if extStartIndex =? -1 then
          (isFile, fileExtension, true, atRoot)
        else
          (true, substr filename extStartIndex, missingSlash, atRoot)
      else (isFile, fileExtension, missingSlash, atRoot)
    else (isFile, fileExtension, missingSlash, atRoot) in
  {| isFile := isFile;
     fileExtension := fileExtension;
     missingSlash := missingSlash;
     atRoot := atRoot |}.

Section Handler.

(** [new URL(s)]: the platform's URL parser, which throws on what it cannot
    parse. *)
Variable URL_new : string -> JsError + URL.

(** [req => new Request(`${new URL(req.url).origin}/404.html`, req)] *)
Definition notFoundRequest (req : Request) : JsError + Request :=
  match URL_new (url req) with
  | inl e => inl e
  | inr u => inr (Request_new (origin u +:+ "/404.html") req)
  end.

Definition handleEvent (event : FetchEvent) : Async Response :=
  let url_string := url (request event) in
  let properties := getProperties url_string in
  if missingSlash properties then
    u ← call (URL_new (url_string +:+ "/"));
    mret (Response_redirect u 301)
  else
  let options := no_options in
  try_catch
    (let options :=
       if DEBUG then
         {| mapRequestToAsset := mapRequestToAsset options;
            cacheControl := Some {| bypassCache := true |} |}
       else options in
     page ← getAssetFromKV event options;
     let response := Response_new (FromStream <$> body page) (Response_as_init page) in
     let response := with_headers response
       (Headers_set (headers response) "X-XSS-Protection" "1; mode=block") in
     let response := with_headers response
       (Headers_set (headers response) "X-Content-Type-Options" "nosniff") in
     let response := with_headers response
       (Headers_set (headers response) "X-Frame-Options" "DENY") in
     let response := with_headers response
       (Headers_set (headers response) "Referrer-Policy" "unsafe-url") in
     let response := with_headers response
       (Headers_set (headers response) "Feature-Policy" "none") in
     let response :=
       if isFile properties then
         with_headers response (setCachePolicy (headers response) (fileExtension properties))
       else response in
     mret response)
    (fun e =>
       served ←
         (if negb DEBUG then
            try_catch
              (notFoundResponse ← getAssetFromKV event
                 {| mapRequestToAsset := Some notFoundRequest; cacheControl := None |};
               mret (Some (Response_new (FromStream <$> body notFoundResponse)
                             (with_status (Response_as_init notFoundResponse) 404))))
              (fun _ => mret None)
          else mret None);
       match served with
       | Some response => mret response
       | None =>
           mret (Response_new (Some (FromString (or_else (message e) (toString e))))
                   {| init_status := Some 500; init_statusText := None;
                      init_headers := None |})
       end).

End Handler.

End Worker.

(* ===================================================================== *)
(** ** [workers-site/index.js] *)
(* ===================================================================== *)

Module WorkersSite.
Import JS.

Definition DEBUG : bool := false.

Definition safeToCache : list string :=
  [".css"; ".ttf"; ".woff"; ".woff2"; ".js"].

Definition setCachePolicy (headers : Headers) (extension : string) : Headers :=
  if includes safeToCache extension then
    Headers_set headers "Cache-Control" "max-age=31536000"
  else headers.

(** An early [return] out of nested conditionals. *)
Inductive Flow (R S : Type) : Type :=
| Return (r : R)
| Continue (s : S).

Arguments Return {R S} r.
Arguments Continue {R S} s.

Section Handler.

Variable URL_new : string -> JsError + URL.

Definition notFoundRequest (req : Request) : JsError + Request :=
  match URL_new (url req) with
  | inl e => inl e
  | inr u => inr (Request_new (origin u +:+ "/404.html") req)
  end.

Definition handleEvent (event : FetchEvent) : Async Response :=
  let url_string := url (request event) in
  let endsWithSlash := endsWith url_string "/" in
  let extStartIndex := -1 in
  let isFile := false in
  let extension := "" in
  let flow : Flow (Async Response) (Z * bool * string) :=
    if negb endsWithSlash then
      let nameStartIndex := lastIndexOf url_string "/" in
      let notAtRoot := negb (nameStartIndex =? -1) in
      if notAtRoot then
        let filename := substr url_string nameStartIndex in
        let extStartIndex := lastIndexOf filename "." in
        if extStartIndex =? -1 then
          Return (u ← call (URL_new (url_string +:+ "/"));
                  mret (Response_redirect u 301))
        else
          Continue (extStartIndex, true, substr filename extStartIndex)
      else Continue (extStartIndex, isFile, extension)
    else Continue (extStartIndex, isFile, extension) in
  match flow with
  | Return r => r
  | Continue (extStartIndex, isFile, extension) =>
  let options := no_options in
  try_catch
    (let options :=
       if DEBUG then
         {| mapRequestToAsset := mapRequestToAsset options;
            cacheControl := Some {| bypassCache := true |} |}
       else options in
     page ← getAssetFromKV event options;
     let response := Response_new (FromStream <$> body page) (Response_as_init page) in
     let response := with_headers response
       (Headers_set (headers response) "X-XSS-Protection" "1; mode=block") in
     let response := with_headers response
       (Headers_set (headers response) "X-Content-Type-Options" "nosniff") in
     let response := with_headers response
       (Headers_set (headers response) "X-Frame-Options" "DENY") in
     let response := with_headers response
       (Headers_set (headers response) "Referrer-Policy" "unsafe-url") in
     let response := with_headers response
       (Headers_set (headers response) "Feature-Policy" "none") in
     let response :=
       if isFile then
         with_headers response (setCachePolicy (headers response) extension)
       else response in
     mret response)
    (fun e =>
       served ←
         (if negb DEBUG then
            try_catch
              (notFoundResponse ← getAssetFromKV event
                 {| mapRequestToAsset := Some notFoundRequest; cacheControl := None |};
               mret (Some (Response_new (FromStream <$> body notFoundResponse)
                             (with_status (Response_as_init notFoundResponse) 404))))
              (fun _ => mret None)
          else mret None);
       match served with
       | Some response => mret response
       | None =>
           mret (Response_new (Some (FromString (or_else (message e) (toString e))))
                   {| init_status := Some 500; init_statusText := None;
                      init_headers := None |})
       end)
  end.

End Handler.

End WorkersSite.

(* ===================================================================== *)
(** ** The fetch listener of both scripts *)
(* ===================================================================== *)

Module Listener.
Import JS.

(** What the platform keeps of a fetch event while it is dispatched: whether
    the dispatch is still going on, whether [respondWith] has been entered,
    and the promise it was given. *)
Record Dispatch := {
  dispatching : bool;
  respondWithEntered : bool;
  responded : option (Async Response)
}.

Definition InvalidStateError : JsError :=
  {| message := Some "The event has already been responded to.";
     toString := "InvalidStateError: The event has already been responded to." |}.

(** [event.respondWith(r)]: it throws outside the dispatch and on a second
    call; otherwise it takes the promise. Whether it throws does not depend
    on [r]. *)
Definition respondWith (st : Dispatch) (r : Async Response) : JsError + Dispatch :=
  if negb (dispatching st) || respondWithEntered st then inl InvalidStateError
  else inr {| dispatching := dispatching st;
              respondWithEntered := true;
              responded := Some r |}.

(** [addEventListener('fetch', event => { ... })]: the same text in both
    scripts, each with its own [DEBUG] and [handleEvent]. Calling an async
    function throws nothing: what its body throws settles the promise. *)
Definition onFetch (DEBUG : bool) (handleEvent : FetchEvent -> Async Response)
    (event : FetchEvent) (st : Dispatch) : JsError + Dispatch :=
  match respondWith st (handleEvent event) with
  | inr st' => inr st'
  | inl e =>
      if DEBUG then
        respondWith st
          (Resolve (Response_new (Some (FromString (or_else (message e) (toString e))))
                      {| init_status := Some 500; init_statusText := None;
                         init_headers := None |}))
      else
        respondWith st
          (Resolve (Response_new (Some (FromString "Internal Error"))
                      {| init_status := Some 500; init_statusText := None;
                         init_headers := None |}))
  end.

End Listener.

(* ===================================================================== *)
(** ** Vocabulary of the statements *)
(* ===================================================================== *)

Import JS.

(** [occurs c s]: the code unit [c] appears somewhere in [s]. *)
Definition occurs (c : ascii) (s : string) : bool :=
  existsb (Ascii.eqb c) (list_ascii_of_string s).


(** The four shapes a classification can take. *)
Inductive classification : Worker.UrlProperties -> Prop :=
| class_directory :
    classification
      {| Worker.isFile := false; Worker.fileExtension := ""; Worker.missingSlash := false; Worker.atRoot := false |}
| class_root :
    classification
      {| Worker.isFile := false; Worker.fileExtension := ""; Worker.missingSlash := false; Worker.atRoot := true |}
| class_missingSlash :
    classification
      {| Worker.isFile := false; Worker.fileExtension := ""; Worker.missingSlash := true; Worker.atRoot := false |}
| class_file ext :
    ext <> "" ->
    classification
      {| Worker.isFile := true; Worker.fileExtension := ext; Worker.missingSlash := false; Worker.atRoot := false |}.


(** The five header writes of the success path, in the order of the source. *)
Definition securityHeaders (h : Headers) : Headers :=
  Headers_set
    (Headers_set
       (Headers_set
          (Headers_set
             (Headers_set h "X-XSS-Protection" "1; mode=block")
             "X-Content-Type-Options" "nosniff")
          "X-Frame-Options" "DENY")
       "Referrer-Policy" "unsafe-url")
    "Feature-Policy" "none".

(** The options of the second fetch. *)
Definition notFoundOptions (URL_new : string -> JsError + URL) : Options :=
  {| mapRequestToAsset := Some (Worker.notFoundRequest URL_new); cacheControl := None |}.

(** The response of the success path, for a cache policy and a classification. *)
Definition served (policy : Headers -> string -> Headers)
    (isFile : bool) (extension : string) (page : Response) : Response :=
  let h := securityHeaders (headers page) in
  with_headers page (if isFile then policy h extension else h).

Definition notFound (asset : Response) : Response :=
  {| status := 404; statusText := statusText asset;
     headers := headers asset; body := body asset |}.

Definition internalError (e : JsError) : Response :=
  {| status := 500; statusText := "";
     headers := Headers_set ∅ "Content-Type" "text/plain;charset=UTF-8";
     body := Some (or_else (message e) (toString e)) |}.

(** Both scripts, run against a store, do this; they differ in the cache
    policy only. *)
Definition outcome (policy : Headers -> string -> Headers)
    (URL_new : string -> JsError + URL) (store : AssetStore) (event : FetchEvent)
  : list Fetch * (JsError + Response) :=
  let url_string := url (request event) in
  let p := Worker.getProperties url_string in
  if Worker.missingSlash p then
    ([], match URL_new (url_string +:+ "/") with
         | inl e => inl e
         | inr u => inr (Response_redirect u 301)
         end)
  else
    match store event no_options with
    | inr page =>
        ([(event, no_options)],
         inr (served policy (Worker.isFile p) (Worker.fileExtension p) page))
    | inl e =>
        ([(event, no_options); (event, notFoundOptions URL_new)],
         inr match store event (notFoundOptions URL_new) with
             | inr asset => notFound asset
             | inl _ => internalError e
             end)
    end.


(** *** The two scripts side by side *)

Inductive Script :=
| getProperties_script   (* the handler that calls getProperties *)
| workers_site_script.   (* workers-site/index.js *)

Definition handleEvent_of (sc : Script)
  : (string -> JsError + URL) -> FetchEvent -> Async Response :=
  match sc with
  | getProperties_script => Worker.handleEvent
  | workers_site_script => WorkersSite.handleEvent
  end.

Definition setCachePolicy_of (sc : Script) : Headers -> string -> Headers :=
  match sc with
  | getProperties_script => Worker.setCachePolicy
  | workers_site_script => WorkersSite.setCachePolicy
  end.


(** *** Sample requests and stores *)

(** A parser that accepts every string as it is, at the origin
    [https://site]. *)
Definition sample_URL_new (s : string) : JsError + URL :=
  inr {| href := s; origin := "https://site" |}.

Definition GET (u : string) : FetchEvent :=
  {| request := {| url := u; method := "GET"; request_headers := ∅ |} |}.

Definition NotFoundError : JsError :=
  {| message := Some "could not find the asset";
     toString := "NotFoundError: could not find the asset" |}.

Definition asset (bytes : string) : Response :=
  {| status := 200; statusText := "OK";
     headers := Headers_set ∅ "Content-Type" "text/plain";
     body := Some bytes |}.

(** A store with a style sheet and a front page, and nothing else: no 404
    page. *)
Definition bare_store : AssetStore := fun event options =>
  match mapRequestToAsset options with
  | None =>
      if String.eqb (url (request event)) "https://site/style.css"
      then inr (asset "body{}")
      else if String.eqb (url (request event)) "https://site/"
      then inr (asset "<html></html>")
      else inl NotFoundError
  | Some _ => inl NotFoundError
  end.


(** A parser that accepts nothing. *)
Definition throwing_URL_new (s : string) : JsError + URL :=
  inl {| message := Some "Invalid URL"; toString := "TypeError: Invalid URL" |}.

(** The same store with a [/404.html] page. *)
Definition site_store : AssetStore := fun event options =>
  match mapRequestToAsset options with
  | None => bare_store event options
  | Some mapper =>
      match mapper (request event) with
      | inr req =>
          if String.eqb (url req) "https://site/404.html"
          then inr (asset "not here")
          else inl NotFoundError
      | inl e => inl e
      end
  end.


(** The store with a 404 page and one more asset. *)
Definition larger_store : AssetStore := fun event options =>
  if String.eqb (url (request event)) "https://site/print.css"
  then inr (asset "@media print{}")
  else site_store event options.

(** A store with an icon, an image and a versioned style sheet, and no 404
    page. *)
Definition media_store : AssetStore := fun event options =>
  match mapRequestToAsset options with
  | None =>
      if String.eqb (url (request event)) "https://site/favicon.ico"
      then inr (asset "icon")
      else if String.eqb (url (request event)) "https://site/logo.png"
      then inr (asset "image")
      else if String.eqb (url (request event)) "https://site/style.css?v=3"
      then inr (asset "body{}")
      else inl NotFoundError
  | Some _ => inl NotFoundError
  end.

(** *** The listener of a script *)

Definition onFetch_of (sc : Script) (URL_new : string -> JsError + URL)
  : FetchEvent -> Listener.Dispatch -> JsError + Listener.Dispatch :=
  match sc with
  | getProperties_script =>
      Listener.onFetch Worker.DEBUG (Worker.handleEvent URL_new)
  | workers_site_script =>
      Listener.onFetch WorkersSite.DEBUG (WorkersSite.handleEvent URL_new)
  end.

(** An event as the platform hands it to the listener. *)
Definition fresh : Listener.Dispatch :=
  {| Listener.dispatching := true;
     Listener.respondWithEntered := false;
     Listener.responded := None |}.

(** The lower-cased names of the six headers the success path may write. *)
Definition written_headers : list string :=
  ["x-xss-protection"; "x-content-type-options"; "x-frame-options";
   "referrer-policy"; "feature-policy"; "cache-control"].

(* ===================================================================== *)
(** ** The definitions at work *)
(* ===================================================================== *)

Example getProperties_tar_gz :
  Worker.getProperties "/a/b.tar.gz"
  = {| Worker.isFile := true; Worker.fileExtension := ".gz";
       Worker.missingSlash := false; Worker.atRoot := false |}.
Proof. reflexivity. Qed.

Example getProperties_about :
  Worker.getProperties "https://site/about"
  = {| Worker.isFile := false; Worker.fileExtension := "";
       Worker.missingSlash := true; Worker.atRoot := false |}.
Proof. reflexivity. Qed.

Example getProperties_noslash :
  Worker.getProperties "file.txt"
  = {| Worker.isFile := false; Worker.fileExtension := "";
       Worker.missingSlash := false; Worker.atRoot := true |}.
Proof. reflexivity. Qed.

Example lower_header : JS.toLowerCase "Cache-Control" = "cache-control".
Proof. reflexivity. Qed.

Example string_primitives :
  JS.lastIndexOf "https://site/a/b.tar.gz" "/" = 14
  /\ JS.lastIndexOf "file.txt" "/" = -1
  /\ JS.lastIndexOf "abc" "" = 3
  /\ JS.lastIndexOf "a--b--c" "--" = 4
  /\ JS.substr "https://site/a/b.tar.gz" 14 = "/b.tar.gz"
  /\ JS.substr "abc" (-1) = "c"
  /\ JS.substr "abc" 5 = ""
  /\ JS.endsWith "https://site/" "/" = true
  /\ JS.endsWith "" "/" = false
  /\ JS.or_else (Some "") "Error" = "Error".
Proof. repeat split. Qed.


(* ===================================================================== *)
(** ** Facts about the string primitives *)
(* ===================================================================== *)

Section StringFacts.

Implicit Types (s t a b : string) (c d : ascii) (i : Z).

Lemma append_nil b : "" +:+ b = b.
Proof. reflexivity. Qed.

Lemma append_cons d a b : String d a +:+ b = String d (a +:+ b).
Proof. reflexivity. Qed.

Lemma append_assoc a b s : (a +:+ b) +:+ s = a +:+ (b +:+ s).
Proof.
  induction a as [|d a IH]; [reflexivity|].
  rewrite !append_cons. now rewrite IH.
Qed.

Lemma occurs_cons c d s : occurs c (String d s) = Ascii.eqb c d || occurs c s.
Proof. reflexivity. Qed.

Lemma occurs_app c a b : occurs c (a +:+ b) = occurs c a || occurs c b.
Proof.
  induction a as [|d a IH]; [reflexivity|].
  rewrite append_cons, !occurs_cons, IH. apply orb_assoc.
Qed.

Lemma ascii_dec_neq (T : Type) c d (x y : T) :
  Ascii.eqb c d = false -> (if ascii_dec c d then x else y) = y.
Proof.
  intros H. destruct (ascii_dec c d) as [->|]; [|reflexivity].
  rewrite Ascii.eqb_refl in H. discriminate.
Qed.

Lemma ascii_dec_refl (T : Type) c (x y : T) : (if ascii_dec c c then x else y) = x.
Proof. destruct (ascii_dec c c); congruence. Qed.

Lemma str_length_cons c s : str_length (String c s) = 1 + str_length s.
Proof. unfold str_length. simpl String.length. lia. Qed.

Lemma str_length_app a b : str_length (a +:+ b) = str_length a + str_length b.
Proof.
  induction a as [|d a IH].
  - reflexivity.
  - rewrite append_cons, !str_length_cons. lia.
Qed.

Lemma str_length_nonneg s : 0 <= str_length s.
Proof. unfold str_length. lia. Qed.

Lemma prefix_single c s :
  String.prefix (String c "") s
  = match s with
    | EmptyString => false
    | String d _ => if ascii_dec c d then true else false
    end.
Proof.
  destruct s as [|d s]; simpl; [reflexivity|].
  destruct (ascii_dec c d); [destruct s|]; reflexivity.
Qed.

Lemma prefix_length t s :
  String.prefix t s = true -> (String.length t <= String.length s)%nat.
Proof.
  revert s. induction t as [|c t IH]; intros [|d s]; simpl; try lia; try discriminate.
  destruct (ascii_dec c d); [|discriminate]. intros H. apply IH in H. lia.
Qed.

(** Where [lastIndexOf] finds something, the occurrence lies inside the
    string. *)
Lemma lastIndexOf_at_bounds t s i :
  0 <= i ->
  lastIndexOf_at i s t <> -1 ->
  i <= lastIndexOf_at i s t /\ lastIndexOf_at i s t + str_length t <= i + str_length s.
Proof.
  revert i. induction s as [|d s IH]; intros i Hi; cbn [lastIndexOf_at].
  - destruct t; simpl; [|congruence]. intros _. unfold str_length; simpl. lia.
  - destruct (Z.eqb_spec (lastIndexOf_at (i + 1) s t) (-1)) as [E|E].
    + destruct (String.prefix t (String d s)) eqn:P; [|congruence].
      intros _. apply prefix_length in P. unfold str_length. lia.
    + intros _. specialize (IH (i + 1) ltac:(lia) E).
      rewrite str_length_cons. lia.
Qed.

Lemma lastIndexOf_at_absent c s i :
  occurs c s = false -> lastIndexOf_at i s (String c "") = -1.
Proof.
  revert i. induction s as [|d s IH]; intros i H; [reflexivity|].
  rewrite occurs_cons in H. apply orb_false_iff in H as [Hd Hs].
  cbn [lastIndexOf_at]. rewrite IH by assumption. rewrite prefix_single.
  rewrite ascii_dec_neq by assumption. reflexivity.
Qed.

Lemma lastIndexOf_at_found c s i :
  0 <= i -> lastIndexOf_at i s (String c "") = -1 -> occurs c s = false.
Proof.
  revert i. induction s as [|d s IH]; intros i Hi H; [reflexivity|].
  cbn [lastIndexOf_at] in H. rewrite prefix_single in H.
  destruct (Z.eqb_spec (lastIndexOf_at (i + 1) s (String c "")) (-1)) as [E|E].
  - destruct (ascii_dec c d) as [->|N]; [lia|].
    rewrite occurs_cons. apply orb_false_iff. split.
    + now apply Ascii.eqb_neq.
    + exact (IH (i + 1) ltac:(lia) E).
  - congruence.
Qed.

(** The last occurrence of [c] is the one with no [c] after it. *)
Lemma lastIndexOf_at_last c a b i :
  0 <= i ->
  occurs c b = false ->
  lastIndexOf_at i (a +:+ String c b) (String c "") = i + str_length a.
Proof.
  revert i. induction a as [|d a IH]; intros i Hi Hb.
  - rewrite append_nil. cbn [lastIndexOf_at]. rewrite lastIndexOf_at_absent by assumption.
    rewrite prefix_single, ascii_dec_refl. cbn [Z.eqb].
    unfold str_length; simpl. lia.
  - rewrite append_cons. cbn [lastIndexOf_at]. rewrite IH by (assumption || lia).
    rewrite str_length_cons.
    destruct (Z.eqb_spec (i + 1 + str_length a) (-1)) as [E|E].
    + pose proof (str_length_nonneg a). lia.
    + lia.
Qed.

Lemma substring_all s : String.substring 0 (String.length s) s = s.
Proof. induction s as [|c s IH]; simpl; [reflexivity | now rewrite IH]. Qed.

Lemma substring_skip a b n :
  String.substring (String.length a) n (a +:+ b) = String.substring 0 n b.
Proof. induction a as [|c a IH]; [reflexivity | exact IH]. Qed.

Lemma substr_app a b : substr (a +:+ b) (str_length a) = b.
Proof.
  unfold substr. pose proof (str_length_nonneg a). pose proof (str_length_nonneg b).
  destruct (Z.ltb_spec (str_length a) 0) as [L|L]; [lia|].
  rewrite str_length_app. rewrite Z.min_l by lia.
  replace (str_length a + str_length b - str_length a) with (str_length b) by lia.
  unfold str_length. rewrite !Nat2Z.id. rewrite substring_skip. apply substring_all.
Qed.

Lemma substr_0 s : substr s 0 = s.
Proof. exact (substr_app "" s). Qed.

Lemma substring_length s n m :
  (n + m <= String.length s)%nat -> String.length (String.substring n m s) = m.
Proof.
  revert n m. induction s as [|c s IH]; intros n m H; simpl in *.
  - destruct n, m; simpl; lia.
  - destruct n as [|n].
    + destruct m as [|m]; simpl; [reflexivity|]. f_equal. apply IH. lia.
    + apply IH. lia.
Qed.

Lemma substr_length s i :
  0 <= i <= str_length s -> str_length (substr s i) = str_length s - i.
Proof.
  intros H. unfold substr.
  destruct (Z.ltb_spec i 0) as [L|L]; [lia|].
  rewrite Z.min_l by lia. unfold str_length in *.
  rewrite substring_length by lia. lia.
Qed.

(** [endsWith] with a one-unit needle looks at the last unit only. *)
Lemma endsWith_cons d s c :
  endsWith (String d s) (String c "")
  = match s with
    | EmptyString => Ascii.eqb d c
    | String _ _ => endsWith s (String c "")
    end.
Proof.
  unfold endsWith. destruct s as [|e s]; simpl.
  - destruct (Ascii.eqb d c); reflexivity.
  - rewrite Nat.sub_0_r. reflexivity.
Qed.

Lemma endsWith_absent c s : occurs c s = false -> endsWith s (String c "") = false.
Proof.
  induction s as [|d s IH]; intros H; [reflexivity|].
  rewrite occurs_cons in H. apply orb_false_iff in H as [Hd Hs].
  rewrite endsWith_cons. destruct s as [|e s].
  - rewrite Ascii.eqb_sym. exact Hd.
  - apply IH. exact Hs.
Qed.

Lemma endsWith_app a b c :
  b <> "" -> endsWith (a +:+ b) (String c "") = endsWith b (String c "").
Proof.
  intros Hb. induction a as [|d a IH]; [reflexivity|].
  rewrite append_cons, endsWith_cons.
  destruct (a +:+ b) as [|e r] eqn:E; [|exact IH].
  destruct a, b; discriminate || congruence.
Qed.

Lemma endsWith_last a c : endsWith (a +:+ String c "") (String c "") = true.
Proof.
  rewrite endsWith_app by discriminate. rewrite endsWith_cons. apply Ascii.eqb_refl.
Qed.

Lemma endsWith_inv s c :
  endsWith s (String c "") = true -> exists a, s = a +:+ String c "".
Proof.
  induction s as [|d s IH]; [discriminate|].
  rewrite endsWith_cons. destruct s as [|e s].
  - intros H. apply Ascii.eqb_eq in H. subst. now exists "".
  - intros H. destruct (IH H) as [a ->]. now exists (String d a).
Qed.

Lemma endsWith_occurs s c : endsWith s (String c "") = true -> occurs c s = true.
Proof.
  intros H. destruct (endsWith_inv _ _ H) as [a ->].
  rewrite occurs_app, occurs_cons, Ascii.eqb_refl. apply orb_true_r.
Qed.

End StringFacts.

(* ===================================================================== *)
(** ** The classifier *)
(* ===================================================================== *)

Section Classifier.
Import Worker.

Implicit Types (url pre seg name ext : string).

Lemma getProperties_endsWithSlash url :
  endsWith url "/" = true ->
  getProperties url
  = {| isFile := false; fileExtension := ""; missingSlash := false; atRoot := false |}.
Proof. intros H. unfold getProperties. now rewrite H. Qed.

Lemma getProperties_atRoot url :
  occurs "/" url = false ->
  getProperties url
  = {| isFile := false; fileExtension := ""; missingSlash := false; atRoot := true |}.
Proof.
  intros H. unfold getProperties, lastIndexOf.
  rewrite endsWith_absent by assumption.
  now rewrite lastIndexOf_at_absent by assumption.
Qed.

(** What follows the last ["/"] is found by the two string calls. *)
Lemma filename_of pre seg :
  occurs "/" seg = false ->
  lastIndexOf (pre +:+ String "/" seg) "/" = str_length pre
  /\ substr (pre +:+ String "/" seg) (str_length pre) = String "/" seg.
Proof.
  intros H. split.
  - unfold lastIndexOf. rewrite lastIndexOf_at_last by (assumption || lia). lia.
  - apply substr_app.
Qed.

Lemma str_length_neq_m1 s : (str_length s =? -1) = false.
Proof. pose proof (str_length_nonneg s). apply Z.eqb_neq. lia. Qed.

Lemma getProperties_missingSlash pre seg :
  seg <> "" ->
  occurs "/" seg = false ->
  occurs "." seg = false ->
  getProperties (pre +:+ "/" +:+ seg)
  = {| isFile := false; fileExtension := ""; missingSlash := true; atRoot := false |}.
Proof.
  intros Hne Hs Hd. change ("/" +:+ seg) with (String "/" seg).
  destruct (filename_of pre seg Hs) as [Hi Hf].
  unfold getProperties. rewrite Hi, Hf, str_length_neq_m1.
  assert (E : endsWith (pre +:+ String "/" seg) "/" = false).
  { change (String "/" seg) with ("/" +:+ seg). rewrite <- append_assoc.
    rewrite endsWith_app by assumption. now apply endsWith_absent. }
  rewrite E. cbn [negb]. unfold lastIndexOf.
  rewrite lastIndexOf_at_absent; [reflexivity|].
  rewrite occurs_cons, Hd. reflexivity.
Qed.

Lemma getProperties_file pre name ext :
  occurs "/" name = false ->
  occurs "/" ext = false ->
  occurs "." ext = false ->
  getProperties (pre +:+ "/" +:+ name +:+ "." +:+ ext)
  = {| isFile := true; fileExtension := "." +:+ ext;
       missingSlash := false; atRoot := false |}.
Proof.
  intros Hn He Hd.
  change ("/" +:+ name +:+ "." +:+ ext) with (String "/" (name +:+ String "." ext)).
  change ("." +:+ ext) with (String "." ext).
  assert (Hs : occurs "/" (name +:+ String "." ext) = false).
  { rewrite occurs_app, occurs_cons, Hn, He. reflexivity. }
  destruct (filename_of pre _ Hs) as [Hi Hf].
  unfold getProperties. rewrite Hi, Hf, str_length_neq_m1.
  assert (E : endsWith (pre +:+ String "/" (name +:+ String "." ext)) "/" = false).
  { rewrite <- append_cons, <- !append_assoc.
    rewrite endsWith_app by discriminate. apply endsWith_absent.
    rewrite occurs_cons, He. reflexivity. }
  rewrite E. cbn [negb]. unfold lastIndexOf.
  rewrite <- append_cons.
  rewrite lastIndexOf_at_last by (assumption || lia).
  rewrite Z.add_0_l, str_length_neq_m1, substr_app. reflexivity.
Qed.

Lemma substr_found_nonempty s c :
  lastIndexOf s (String c "") <> -1 ->
  substr s (lastIndexOf s (String c "")) <> "".
Proof.
  intros H. unfold lastIndexOf in *.
  destruct (lastIndexOf_at_bounds (String c "") s 0 ltac:(lia) H) as [L U].
  rewrite str_length_cons in U. change (str_length "") with 0 in U.
  intros E. apply (f_equal str_length) in E.
  rewrite substr_length in E by lia. change (str_length "") with 0 in E. lia.
Qed.

Lemma getProperties_classification url : classification (getProperties url).
Proof.
  unfold getProperties.
  destruct (endsWith url "/"); cbn [negb]; [constructor|].
  destruct (Z.eqb_spec (lastIndexOf url "/") (-1)) as [R|R]; cbn [negb]; [constructor|].
  destruct (Z.eqb_spec (lastIndexOf (substr url (lastIndexOf url "/")) ".") (-1)) as [X|X];
    [constructor|].
  constructor. now apply substr_found_nonempty.
Qed.

End Classifier.

(* ===================================================================== *)
(** ** What a run of either handler amounts to *)
(* ===================================================================== *)

Section Runs.

Variable URL_new : string -> JsError + URL.
Variable store : AssetStore.

Lemma Response_copy (page : Response) :
  Response_new (FromStream <$> body page) (Response_as_init page) = page.
Proof. destruct page as [st tx h [b|]]; reflexivity. Qed.

Lemma Response_notFound (asset : Response) :
  Response_new (FromStream <$> body asset) (with_status (Response_as_init asset) 404)
  = notFound asset.
Proof. destruct asset as [st tx h [b|]]; reflexivity. Qed.

Lemma Response_internalError (e : JsError) :
  Response_new (Some (FromString (or_else (message e) (toString e))))
    {| init_status := Some 500; init_statusText := None; init_headers := None |}
  = internalError e.
Proof. reflexivity. Qed.

(** The try/catch part of either handler, once the classification is known:
    one case per answer of the store. *)
Ltac step_async :=
  cbn [call try_catch getAssetFromKV Worker.DEBUG WorkersSite.DEBUG negb run
       mbind Async_mbind Async_bind mret Async_ret].

Ltac settle_fetches URL_new store event :=
  step_async;
  change {| mapRequestToAsset := Some (WorkersSite.notFoundRequest URL_new);
            cacheControl := None |} with (notFoundOptions URL_new);
  fold (notFoundOptions URL_new);
  destruct (store event no_options) as [?e|?page]; step_async;
  [ destruct (store event (notFoundOptions URL_new)) as [?e|?asset]; step_async;
    [ reflexivity | now rewrite Response_notFound ]
  | rewrite Response_copy; unfold served; reflexivity ].

Lemma run_Worker (event : FetchEvent) :
  run store (Worker.handleEvent URL_new event)
  = outcome Worker.setCachePolicy URL_new store event.
Proof.
  unfold Worker.handleEvent, outcome.
  destruct (Worker.missingSlash _).
  - destruct (URL_new _); reflexivity.
  - destruct (Worker.isFile _); settle_fetches URL_new store event.
Qed.

Lemma run_WorkersSite (event : FetchEvent) :
  run store (WorkersSite.handleEvent URL_new event)
  = outcome WorkersSite.setCachePolicy URL_new store event.
Proof.
  unfold WorkersSite.handleEvent, outcome, Worker.getProperties.
  destruct (endsWith (url (request event)) "/"); cbn [negb Worker.missingSlash].
  - settle_fetches URL_new store event.
  - destruct (lastIndexOf (url (request event)) "/" =? -1); cbn [negb Worker.missingSlash].
    + settle_fetches URL_new store event.
    + destruct (lastIndexOf _ "." =? -1); cbn [negb Worker.missingSlash].
      * destruct (URL_new _); reflexivity.
      * settle_fetches URL_new store event.
Qed.

End Runs.

Lemma run_script sc URL_new store event :
  run store (handleEvent_of sc URL_new event)
  = outcome (setCachePolicy_of sc) URL_new store event.
Proof. destruct sc; [apply run_Worker | apply run_WorkersSite]. Qed.

(** ** Headers *)

Lemma Headers_get_set (h : Headers) n v n' :
  Headers_get (Headers_set h n v) n'
  = if decide (toLowerCase n = toLowerCase n') then Some v else Headers_get h n'.
Proof. unfold Headers_get, Headers_set. apply lookup_insert. Qed.

Lemma Headers_get_set_eq (h : Headers) n v : Headers_get (Headers_set h n v) n = Some v.
Proof. rewrite Headers_get_set. now destruct (decide _). Qed.

Lemma Headers_get_set_ne (h : Headers) n v n' :
  toLowerCase n <> toLowerCase n' ->
  Headers_get (Headers_set h n v) n' = Headers_get h n'.
Proof. intros H. rewrite Headers_get_set. now destruct (decide _). Qed.

Lemma includes_In l x : includes l x = true <-> In x l.
Proof.
  unfold includes. rewrite existsb_exists. split.
  - intros (y & Hy & E). apply String.eqb_eq in E. now subst.
  - intros H. exists x. split; [assumption | apply String.eqb_refl].
Qed.

Lemma includes_not_In l x : includes l x = false <-> ~ In x l.
Proof.
  rewrite <- includes_In. destruct (includes l x); split; congruence.
Qed.

(** Neither policy touches a header other than [Cache-Control]. *)
Lemma setCachePolicy_frame sc (h : Headers) ext n :
  toLowerCase "Cache-Control" <> toLowerCase n ->
  Headers_get (setCachePolicy_of sc h ext) n = Headers_get h n.
Proof.
  intros H. destruct sc; cbn [setCachePolicy_of];
    unfold Worker.setCachePolicy, WorkersSite.setCachePolicy;
    repeat match goal with |- context [includes ?l ?x] => destruct (includes l x) end;
    try reflexivity; now apply Headers_get_set_ne.
Qed.

(** The table of [workers-site/index.js] lies inside the long-term table. *)
Lemma safeToCache_longTermCache ext :
  In ext WorkersSite.safeToCache -> In ext Worker.longTermCache.
Proof. unfold WorkersSite.safeToCache, Worker.longTermCache. simpl. tauto. Qed.

Lemma setCachePolicy_outside sc (h : Headers) ext :
  ~ In ext Worker.longTermCache ->
  ~ In ext Worker.shortTermCache ->
  setCachePolicy_of sc h ext = h.
Proof.
  intros Hl Hs. destruct sc; cbn [setCachePolicy_of].
  - unfold Worker.setCachePolicy.
    apply includes_not_In in Hl, Hs. now rewrite Hl, Hs.
  - unfold WorkersSite.setCachePolicy.
    assert (N : ~ In ext WorkersSite.safeToCache)
      by (intros I; apply Hl, safeToCache_longTermCache, I).
    apply includes_not_In in N. now rewrite N.
Qed.

Ltac names_differ :=
  let E := fresh in intros E; vm_compute in E; discriminate E.

Lemma securityHeaders_spec (h : Headers) :
  Headers_get (securityHeaders h) "X-XSS-Protection" = Some "1; mode=block"
  /\ Headers_get (securityHeaders h) "X-Content-Type-Options" = Some "nosniff"
  /\ Headers_get (securityHeaders h) "X-Frame-Options" = Some "DENY"
  /\ Headers_get (securityHeaders h) "Referrer-Policy" = Some "unsafe-url"
  /\ Headers_get (securityHeaders h) "Feature-Policy" = Some "none".
Proof.
  unfold securityHeaders.
  repeat split;
    repeat first [ apply Headers_get_set_eq
                 | rewrite Headers_get_set_ne by names_differ ].
Qed.

Lemma securityHeaders_frame (h : Headers) n :
  ~ In (toLowerCase n)
      ["x-xss-protection"; "x-content-type-options"; "x-frame-options";
       "referrer-policy"; "feature-policy"] ->
  Headers_get (securityHeaders h) n = Headers_get h n.
Proof.
  intros H. unfold securityHeaders.
  rewrite !Headers_get_set_ne; [reflexivity|..];
    intros E; apply H; rewrite <- E; vm_compute; tauto.
Qed.

(** ** Runs as a relation *)

Lemma runs_run {A} (store : AssetStore) (p : Async A) fetches result :
  runs store p fetches result -> run store p = (fetches, result).
Proof.
  induction 1 as [a|e|event options k fetches result _ IH]; cbn [run];
    [reflexivity | reflexivity | now rewrite IH].
Qed.

Lemma run_ext {A} (store store' : AssetStore) (p : Async A) :
  (forall ev options, store ev options = store' ev options) ->
  run store p = run store' p.
Proof.
  intros H. induction p as [a|e|event options k IH]; cbn [run];
    [reflexivity | reflexivity |].
  now rewrite <- H, IH.
Qed.

Lemma run_runs {A} (store : AssetStore) (p : Async A) :
  runs store p (fst (run store p)) (snd (run store p)).
Proof.
  induction p as [a|e|event options k IH]; cbn [run].
  - constructor.
  - constructor.
  - specialize (IH (store event options)).
    destruct (run store (k (store event options))) as [fetches result].
    now constructor.
Qed.


(* ===================================================================== *)
(** ** The cache policy *)
(* ===================================================================== *)

(** C1, as the code has it. In the script with [getProperties], every
    extension of the long-term table gets exactly
    ["max-age=31536000, public"] and every extension of the short-term table
    exactly ["max-age=604800, public"]; the match is exact and case-sensitive
    ([".CSS"] and ["css"] get nothing). In [workers-site/index.js] the only
    table is [.css .ttf .woff .woff2 .js], its directive is
    ["max-age=31536000"], and every other extension leaves the headers as
    they were. *)
Theorem C1_cache_tables_of_both_scripts :
  (forall (h : Headers) (ext : string),
      In ext [".css"; ".ttf"; ".woff"; ".woff2"; ".js";
              ".png"; ".jpg"; ".jpeg"; ".webp"; ".svg"] ->
      Headers_get (Worker.setCachePolicy h ext) "Cache-Control"
      = Some "max-age=31536000, public")
  /\ (forall (h : Headers) (ext : string),
      In ext [".ico"; ".json"] ->
      Headers_get (Worker.setCachePolicy h ext) "Cache-Control"
      = Some "max-age=604800, public")
  /\ (forall h : Headers,
      Worker.setCachePolicy h ".CSS" = h /\ Worker.setCachePolicy h "css" = h)
  /\ (forall (h : Headers) (ext : string),
      In ext [".css"; ".ttf"; ".woff"; ".woff2"; ".js"] ->
      Headers_get (WorkersSite.setCachePolicy h ext) "Cache-Control"
      = Some "max-age=31536000")
  /\ (forall (h : Headers) (ext : string),
      ~ In ext [".css"; ".ttf"; ".woff"; ".woff2"; ".js"] ->
      WorkersSite.setCachePolicy h ext = h).
Proof.
  split; [|split; [|split; [|split]]].
  - intros h ext H. unfold Worker.setCachePolicy.
    apply includes_In in H. unfold Worker.longTermCache. rewrite H.
    apply Headers_get_set_eq.
  - intros h ext H. unfold Worker.setCachePolicy.
    assert (N : includes Worker.longTermCache ext = false).
    { simpl in H. destruct H as [<-|[<-|[]]]; reflexivity. }
    rewrite N. apply includes_In in H. unfold Worker.shortTermCache. rewrite H.
    apply Headers_get_set_eq.
  - intros h. split; reflexivity.
  - intros h ext H. unfold WorkersSite.setCachePolicy.
    apply includes_In in H. unfold WorkersSite.safeToCache. rewrite H.
    apply Headers_get_set_eq.
  - intros h ext H. apply includes_not_In in H.
    unfold WorkersSite.setCachePolicy, WorkersSite.safeToCache. now rewrite H.
Qed.

(** C1 as stated fails on [workers-site/index.js]: [.png] is in the long-term
    set of the claim, and this [setCachePolicy] sets no [Cache-Control] for
    it. *)
Lemma C1_workers_site_png :
  Headers_get (WorkersSite.setCachePolicy ∅ ".png") "Cache-Control"
  <> Some "max-age=31536000, public".
Proof. discriminate. Qed.

(** For [.css], which both scripts cache, the directive of
    [workers-site/index.js] has no [public]. *)
Lemma workers_site_css :
  Headers_get (WorkersSite.setCachePolicy ∅ ".css") "Cache-Control"
  = Some "max-age=31536000".
Proof. reflexivity. Qed.

(* ===================================================================== *)
(** ** Claims about the classification *)
(* ===================================================================== *)

Section ClassifierClaims.
Import Worker.

(** C3. A URL whose part after the last ["/"] is [name.ext], with no further
    ["."] in [ext], is classified as a file, and its extension is ["." ext]:
    the text from the last dot to the end of the string, dot included. *)
Theorem C3_file_extension_is_last_dot_suffix (pre name ext : string) :
  occurs "/" name = false ->
  occurs "/" ext = false ->
  occurs "." ext = false ->
  isFile (getProperties (pre +:+ "/" +:+ name +:+ "." +:+ ext)) = true
  /\ fileExtension (getProperties (pre +:+ "/" +:+ name +:+ "." +:+ ext)) = "." +:+ ext.
Proof.
  intros Hn He Hd. rewrite (getProperties_file pre name ext Hn He Hd).
  split; reflexivity.
Qed.

Lemma C3_witness_tar_gz :
  isFile (getProperties ("/a" +:+ "/" +:+ "b.tar" +:+ "." +:+ "gz")) = true
  /\ fileExtension (getProperties ("/a" +:+ "/" +:+ "b.tar" +:+ "." +:+ "gz")) = "." +:+ "gz".
Proof.
  apply (C3_file_extension_is_last_dot_suffix "/a" "b.tar" "gz"); reflexivity.
Defined.

(** C7. Every classification satisfies the three invariants: a file has a
    non-empty extension; missing-slash and file exclude each other; at-root
    excludes both. *)
Theorem C7_classification_invariants (url_string : string) :
  (isFile (getProperties url_string) = true ->
   fileExtension (getProperties url_string) <> "")
  /\ ~ (missingSlash (getProperties url_string) = true
        /\ isFile (getProperties url_string) = true)
  /\ (atRoot (getProperties url_string) = true ->
      isFile (getProperties url_string) = false
      /\ missingSlash (getProperties url_string) = false).
Proof.
  destruct (getProperties_classification url_string) as [| | |ext Hext];
    cbn [isFile fileExtension missingSlash atRoot].
  - repeat split; try discriminate. intros [H _]. discriminate.
  - repeat split; try discriminate. intros [H _]. discriminate.
  - repeat split; try discriminate. intros [_ H]. discriminate.
  - repeat split; try discriminate; try (intros _; exact Hext). intros [H _]. discriminate.
Qed.

(** C8. A URL that ends in ["/"] is neither a file nor missing a slash; and
    every string is classified, into one of the four shapes of
    [classification]: nothing is thrown. *)
Theorem C8_trailing_slash_and_totality :
  (forall path : string,
      isFile (getProperties (path +:+ "/")) = false
      /\ missingSlash (getProperties (path +:+ "/")) = false)
  /\ (forall url_string : string, classification (getProperties url_string)).
Proof.
  split.
  - intros path. rewrite getProperties_endsWithSlash by apply endsWith_last.
    split; reflexivity.
  - apply getProperties_classification.
Qed.

Lemma getProperties_not_atRoot (url_string : string) :
  occurs "/" url_string = true -> atRoot (getProperties url_string) = false.
Proof.
  intros H. unfold getProperties.
  destruct (endsWith url_string "/"); cbn [negb atRoot]; [reflexivity|].
  destruct (Z.eqb_spec (lastIndexOf url_string "/") (-1)) as [E|E]; cbn [negb].
  - apply lastIndexOf_at_found in E; [congruence | lia].
  - destruct (_ =? -1); reflexivity.
Qed.

(** An absolute URL has a ["/"] in it: the scheme separator. *)
Lemma absolute_url_has_slash (scheme rest : string) :
  occurs "/" (scheme +:+ "://" +:+ rest) = true.
Proof.
  rewrite occurs_app. change ("://" +:+ rest) with (String ":" (String "/" (String "/" rest))).
  rewrite !occurs_cons. cbn [Ascii.eqb Bool.eqb]. cbn. apply orb_true_r.
Qed.

End ClassifierClaims.

(* ===================================================================== *)
(** ** Claims about the handler *)
(* ===================================================================== *)

Section HandlerClaims.
Import Worker.

Variable sc : Script.
Variable URL_new : string -> JsError + URL.
Variable store : AssetStore.
Variable event : FetchEvent.


(** Whatever the parser does, the redirect branch fetches nothing. *)
Lemma redirect_fetches_nothing :
  missingSlash (getProperties (url (request event))) = true ->
  fst (run store (handleEvent_of sc URL_new event)) = [].
Proof. intros M. rewrite run_script. unfold outcome. now rewrite M. Qed.

(** C5. When the request is not redirected and the first fetch succeeds,
    the response carries the five security headers with their fixed values. *)
Theorem C5_security_headers_on_success (page : Response) :
  missingSlash (getProperties (url (request event))) = false ->
  store event no_options = inr page ->
  exists r,
    snd (run store (handleEvent_of sc URL_new event)) = inr r
    /\ Headers_get (headers r) "X-XSS-Protection" = Some "1; mode=block"
    /\ Headers_get (headers r) "X-Content-Type-Options" = Some "nosniff"
    /\ Headers_get (headers r) "X-Frame-Options" = Some "DENY"
    /\ Headers_get (headers r) "Referrer-Policy" = Some "unsafe-url"
    /\ Headers_get (headers r) "Feature-Policy" = Some "none".
Proof.
  intros M Hpage. rewrite run_script. unfold outcome. rewrite M, Hpage.
  eexists. split; [reflexivity|].
  unfold served. cbn [headers with_headers].
  destruct (isFile _).
  - rewrite !setCachePolicy_frame by names_differ. apply securityHeaders_spec.
  - apply securityHeaders_spec.
Qed.

(** C6. For an extension in neither table, the empty one included,
    [setCachePolicy] leaves the header map as it was. When the request is not
    redirected and the first fetch succeeds, and the request is not a file or
    its extension is in neither table, the headers of the response are those
    of the asset with the five security headers written over them, and
    [Cache-Control] reads as it did in the asset. *)
Theorem C6_no_cache_control_outside_tables (page : Response) :
  missingSlash (getProperties (url (request event))) = false ->
  store event no_options = inr page ->
  isFile (getProperties (url (request event))) = false
  \/ (~ In (fileExtension (getProperties (url (request event))))
          [".css"; ".ttf"; ".woff"; ".woff2"; ".js";
           ".png"; ".jpg"; ".jpeg"; ".webp"; ".svg"]
      /\ ~ In (fileExtension (getProperties (url (request event)))) [".ico"; ".json"]) ->
  (forall (h : Headers) (ext : string),
      ~ In ext [".css"; ".ttf"; ".woff"; ".woff2"; ".js";
                ".png"; ".jpg"; ".jpeg"; ".webp"; ".svg"] ->
      ~ In ext [".ico"; ".json"] ->
      setCachePolicy_of sc h ext = h)
  /\ (forall h : Headers, setCachePolicy_of sc h "" = h)
  /\ exists r,
       snd (run store (handleEvent_of sc URL_new event)) = inr r
       /\ headers r = securityHeaders (headers page)
       /\ Headers_get (headers r) "Cache-Control"
          = Headers_get (headers page) "Cache-Control".
Proof.
  intros M Hpage Hout.
  split; [intros h ext; apply setCachePolicy_outside|].
  split; [intros h; destruct sc; reflexivity|].
  rewrite run_script. unfold outcome. rewrite M, Hpage.
  eexists. split; [reflexivity|].
  unfold served. cbn [headers with_headers].
  assert (E : (if isFile (getProperties (url (request event)))
               then setCachePolicy_of sc (securityHeaders (headers page))
                      (fileExtension (getProperties (url (request event))))
               else securityHeaders (headers page))
              = securityHeaders (headers page)).
  { destruct Hout as [-> | [Hl Hs]]; [reflexivity|].
    destruct (isFile _); [|reflexivity].
    now apply setCachePolicy_outside. }
  rewrite E. split; [reflexivity|].
  apply securityHeaders_frame. vm_compute. intuition discriminate.
Qed.

(** C2. When the first fetch fails, the handler fetches once more, with a
    request mapper that sends a request to [/404.html] at the origin of its
    URL. If that fetch succeeds, the response is the 404 asset with status
    404: its body and exactly its headers. If it fails as well, the response
    has status 500 and carries the message of the first error, or the
    error's string form when the message is undefined or empty. *)
Theorem C2_fallback_to_404_then_500 (e : JsError) :
  missingSlash (getProperties (url (request event))) = false ->
  store event no_options = inl e ->
  exists mapper,
    (forall req,
        mapper req = match URL_new (url req) with
                     | inl thrown => inl thrown
                     | inr u => inr (Request_new (origin u +:+ "/404.html") req)
                     end)
    /\ fst (run store (handleEvent_of sc URL_new event))
       = [(event, no_options);
          (event, {| mapRequestToAsset := Some mapper; cacheControl := None |})]
    /\ (forall page404,
           store event {| mapRequestToAsset := Some mapper; cacheControl := None |}
           = inr page404 ->
           exists r,
             snd (run store (handleEvent_of sc URL_new event)) = inr r
             /\ status r = 404
             /\ body r = body page404
             /\ headers r = headers page404)
    /\ (forall e404,
           store event {| mapRequestToAsset := Some mapper; cacheControl := None |}
           = inl e404 ->
           exists r,
             snd (run store (handleEvent_of sc URL_new event)) = inr r
             /\ status r = 500
             /\ (forall m, message e = Some m -> m <> "" -> body r = Some m)
             /\ (message e = None \/ message e = Some "" -> body r = Some (toString e))).
Proof.
  intros M He. rewrite run_script. unfold outcome. rewrite M, He.
  exists (notFoundRequest URL_new). cbn [fst snd].
  split; [reflexivity|]. split; [reflexivity|]. split.
  - intros page404 H. unfold notFoundOptions. rewrite H.
    eexists. split; [reflexivity|]. repeat split.
  - intros e404 H. unfold notFoundOptions. rewrite H.
    eexists. split; [reflexivity|]. split; [reflexivity|].
    cbn [body internalError]. split.
    + intros m Hm Hne. rewrite Hm. cbn [or_else].
      destruct (String.eqb_spec m ""); congruence.
    + intros [Hm|Hm]; rewrite Hm; reflexivity.
Qed.

(** C9. The response is a function of the request and of the store. Two
    runs of the handler, on events with the same request, against stores that
    answer every fetch alike, make the same fetches and end in the same
    outcome: the same response, in status, headers and body. *)
Theorem C9_handler_is_deterministic
    (event' : FetchEvent) (store' : AssetStore) fetches fetches' result result' :
  request event = request event' ->
  (forall ev options, store ev options = store' ev options) ->
  runs store (handleEvent_of sc URL_new event) fetches result ->
  runs store' (handleEvent_of sc URL_new event') fetches' result' ->
  fetches = fetches' /\ result = result'.
Proof.
  intros Hreq Hstore R R'.
  assert (E : event = event') by (destruct event, event'; cbn in Hreq; now subst).
  subst event'. apply runs_run in R, R'.
  rewrite (run_ext store store' _ Hstore) in R.
  rewrite R in R'. now inversion R'.
Qed.

(** C10. A URL with a ["/"] in it is never at root, and every absolute URL
    has one, in [scheme://]; the handler then either takes the redirect
    branch, fetching nothing, or starts with the fetch of the request
    itself. *)
Theorem C10_slash_means_not_at_root :
  occurs "/" (url (request event)) = true ->
  atRoot (getProperties (url (request event))) = false
  /\ (forall scheme rest : string, occurs "/" (scheme +:+ "://" +:+ rest) = true)
  /\ ((missingSlash (getProperties (url (request event))) = true
       /\ run store (handleEvent_of sc URL_new event)
          = ([], match URL_new (url (request event) +:+ "/") with
                 | inl thrown => inl thrown
                 | inr u => inr (Response_redirect u 301)
                 end))
      \/ (missingSlash (getProperties (url (request event))) = false
          /\ exists more,
               fst (run store (handleEvent_of sc URL_new event))
               = (event, no_options) :: more)).
Proof.
  intros H. split; [now apply getProperties_not_atRoot|].
  split; [exact absolute_url_has_slash|].
  rewrite run_script. unfold outcome.
  destruct (missingSlash _); [left | right]; (split; [reflexivity|]).
  - reflexivity.
  - destruct (store event no_options); eexists; reflexivity.
Qed.

End HandlerClaims.

(* ===================================================================== *)
(** ** Further properties of the two scripts *)
(* ===================================================================== *)

Section Further.
Import Worker.

Variable URL_new : string -> JsError + URL.
Variable store : AssetStore.
Variable event : FetchEvent.

(** X1. The two scripts answer alike wherever the cache policy is not
    consulted: when the request is not a file, and when the first fetch
    fails. *)
Theorem scripts_differ_in_cache_policy_only :
  isFile (getProperties (url (request event))) = false
  \/ (exists e, store event no_options = inl e) ->
  run store (Worker.handleEvent URL_new event)
  = run store (WorkersSite.handleEvent URL_new event).
Proof.
  intros H. rewrite run_Worker, run_WorkersSite. unfold outcome.
  destruct (missingSlash _); [reflexivity|].
  destruct H as [H | [e H]]; rewrite H; [|reflexivity].
  destruct (store event no_options); reflexivity.
Qed.

(** X2. A string with no ["/"] in it is at root and nothing else, dots or
    not. *)
Theorem no_slash_is_at_root (url_string : string) :
  occurs "/" url_string = false ->
  getProperties url_string
  = {| isFile := false; fileExtension := ""; missingSlash := false; atRoot := true |}.
Proof. apply getProperties_atRoot. Qed.

(** X3. In the script with [getProperties], a file of the long-term table
    that the store has is served with the year-long directive, and with the
    status and body of the asset. *)
Theorem long_term_file_is_served_with_cache_control (page : Response) :
  isFile (getProperties (url (request event))) = true ->
  In (fileExtension (getProperties (url (request event))))
     [".css"; ".ttf"; ".woff"; ".woff2"; ".js";
      ".png"; ".jpg"; ".jpeg"; ".webp"; ".svg"] ->
  store event no_options = inr page ->
  exists r,
    run store (Worker.handleEvent URL_new event) = ([(event, no_options)], inr r)
    /\ status r = status page
    /\ body r = body page
    /\ Headers_get (headers r) "Cache-Control" = Some "max-age=31536000, public".
Proof.
  intros F I Hpage. rewrite run_Worker. unfold outcome.
  destruct (getProperties_classification (url (request event))) as [| | |ext Hext];
    try discriminate F.
  cbn [missingSlash isFile fileExtension] in *. rewrite Hpage.
  eexists. split; [reflexivity|]. split; [reflexivity|]. split; [reflexivity|].
  cbn [headers served with_headers]. unfold setCachePolicy.
  apply includes_In in I. unfold longTermCache. rewrite I.
  apply Headers_get_set_eq.
Qed.

(** X4. The handler reads the store at its two fetches and nowhere else. *)
Theorem handler_reads_the_store_at_two_fetches (sc : Script) (store' : AssetStore) :
  store event no_options = store' event no_options ->
  store event (notFoundOptions URL_new) = store' event (notFoundOptions URL_new) ->
  run store (handleEvent_of sc URL_new event)
  = run store' (handleEvent_of sc URL_new event).
Proof.
  intros H1 H2. rewrite !run_script. unfold outcome. now rewrite H1, H2.
Qed.

(** X5. On the redirect branch, when [new URL] throws, the promise of the
    handler rejects with what was thrown, and nothing has been fetched. *)
Theorem redirect_rejects_when_URL_throws (sc : Script) (thrown : JsError) :
  missingSlash (getProperties (url (request event))) = true ->
  URL_new (url (request event) +:+ "/") = inl thrown ->
  run store (handleEvent_of sc URL_new event) = ([], inl thrown).
Proof.
  intros M H. rewrite run_script. unfold outcome. now rewrite M, H.
Qed.

End Further.

(* ===================================================================== *)
(** ** More of the classifier *)
(* ===================================================================== *)

Section MoreClassifier.
Import Worker.

Implicit Types (url_string pre seg name ext query : string).

(** A code unit that occurs has a last occurrence. *)
Lemma split_last (c : ascii) (s : string) :
  occurs c s = true ->
  exists a b, s = a +:+ String c b /\ occurs c b = false.
Proof.
  induction s as [|d s IH]; [discriminate|].
  rewrite occurs_cons. destruct (occurs c s) eqn:O.
  - intros _. destruct (IH eq_refl) as (a & b & -> & Hb).
    exists (String d a), b. split; [reflexivity | exact Hb].
  - rewrite orb_false_r. intros E. apply Ascii.eqb_eq in E. subst d.
    exists "", s. split; [reflexivity | exact O].
Qed.

(** The four kinds of string the classifier tells apart. *)
Lemma url_kinds url_string :
  (exists path,
      url_string = path +:+ "/"
      /\ getProperties url_string
         = {| isFile := false; fileExtension := ""; missingSlash := false; atRoot := false |})
  \/ (occurs "/" url_string = false
      /\ getProperties url_string
         = {| isFile := false; fileExtension := ""; missingSlash := false; atRoot := true |})
  \/ (exists pre seg,
         url_string = pre +:+ "/" +:+ seg
         /\ seg <> "" /\ occurs "/" seg = false /\ occurs "." seg = false
         /\ getProperties url_string
            = {| isFile := false; fileExtension := ""; missingSlash := true; atRoot := false |})
  \/ (exists pre name ext,
         url_string = pre +:+ "/" +:+ name +:+ "." +:+ ext
         /\ occurs "/" name = false /\ occurs "/" ext = false /\ occurs "." ext = false
         /\ getProperties url_string
            = {| isFile := true; fileExtension := "." +:+ ext;
                 missingSlash := false; atRoot := false |}).
Proof.
  destruct (endsWith url_string "/") eqn:E.
  { left. destruct (endsWith_inv _ _ E) as [path ->].
    exists path. split; [reflexivity|]. now apply getProperties_endsWithSlash. }
  right. destruct (occurs "/" url_string) eqn:O.
  2:{ left. split; [reflexivity|]. now apply getProperties_atRoot. }
  right. destruct (split_last _ _ O) as (pre & seg & -> & Hseg).
  assert (Hne : seg <> "").
  { intros ->. rewrite endsWith_last in E. discriminate. }
  destruct (occurs "." seg) eqn:D.
  - right. destruct (split_last _ _ D) as (name & ext & -> & Hext).
    rewrite occurs_app, occurs_cons in Hseg.
    apply orb_false_iff in Hseg as [Hname Hrest].
    apply orb_false_iff in Hrest as [_ Hext'].
    exists pre, name, ext. repeat (split; [reflexivity || assumption|]).
    now apply getProperties_file.
  - left. exists pre, seg. repeat (split; [reflexivity || assumption|]).
    now apply getProperties_missingSlash.
Qed.

(** X6. Every string is of one of the four kinds the classifier tells
    apart, and is classified by its kind: it ends in ["/"]; or it has no
    ["/"]; or a non-empty segment without ["."] follows its last ["/"]; or
    [name.ext] follows its last ["/"], with [ext] after the last ["."]. *)
Theorem every_url_is_of_one_kind url_string :
  (exists path,
      url_string = path +:+ "/"
      /\ getProperties url_string
         = {| isFile := false; fileExtension := ""; missingSlash := false; atRoot := false |})
  \/ (occurs "/" url_string = false
      /\ getProperties url_string
         = {| isFile := false; fileExtension := ""; missingSlash := false; atRoot := true |})
  \/ (exists pre seg,
         url_string = pre +:+ "/" +:+ seg
         /\ seg <> "" /\ occurs "/" seg = false /\ occurs "." seg = false
         /\ getProperties url_string
            = {| isFile := false; fileExtension := ""; missingSlash := true; atRoot := false |})
  \/ (exists pre name ext,
         url_string = pre +:+ "/" +:+ name +:+ "." +:+ ext
         /\ occurs "/" name = false /\ occurs "/" ext = false /\ occurs "." ext = false
         /\ getProperties url_string
            = {| isFile := true; fileExtension := "." +:+ ext;
                 missingSlash := false; atRoot := false |}).
Proof. exact (url_kinds url_string). Qed.

(** X7. The classification looks at nothing before the last ["/"]. *)
Theorem classification_depends_on_last_segment pre pre' seg :
  occurs "/" seg = false ->
  getProperties (pre +:+ "/" +:+ seg) = getProperties (pre' +:+ "/" +:+ seg).
Proof.
  intros Hseg. destruct seg as [|c seg'] eqn:S.
  { rewrite !getProperties_endsWithSlash by apply endsWith_last. reflexivity. }
  rewrite <- S in *. assert (Hne : seg <> "") by (rewrite S; discriminate).
  clear S. destruct (occurs "." seg) eqn:D.
  - destruct (split_last _ _ D) as (name & ext & -> & Hext).
    rewrite occurs_app, occurs_cons in Hseg.
    apply orb_false_iff in Hseg as [Hname Hrest].
    apply orb_false_iff in Hrest as [_ Hext'].
    change (String "." ext) with ("." +:+ ext).
    now rewrite !getProperties_file.
  - now rewrite !getProperties_missingSlash.
Qed.

(** X8. The extension of a file is the end of the URL: it starts with a dot
    and has no other dot and no slash in it. *)
Theorem extension_is_a_dotted_suffix url_string :
  isFile (getProperties url_string) = true ->
  exists stem rest,
    url_string = stem +:+ fileExtension (getProperties url_string)
    /\ fileExtension (getProperties url_string) = "." +:+ rest
    /\ occurs "." rest = false
    /\ occurs "/" rest = false.
Proof.
  intros F.
  destruct (url_kinds url_string)
    as [(path & _ & G) | [(_ & G) | [(pre & seg & _ & _ & _ & _ & G)
                                    | (pre & name & ext & U & _ & He & Hd & G)]]];
    rewrite G in F; try discriminate F.
  rewrite G. cbn [fileExtension].
  exists (pre +:+ "/" +:+ name), ext.
  split; [|repeat split; assumption].
  rewrite U. now rewrite !append_assoc.
Qed.

(** A query string belongs to the extension: in [name.ext?query] the
    extension is [.ext?query], which is in no cache table of either script. *)
Lemma query_string_in_extension (sc : Script) pre name ext query :
  occurs "/" name = false ->
  occurs "/" ext = false -> occurs "." ext = false ->
  occurs "/" query = false -> occurs "." query = false ->
  getProperties (pre +:+ "/" +:+ name +:+ "." +:+ ext +:+ "?" +:+ query)
  = {| isFile := true; fileExtension := "." +:+ ext +:+ "?" +:+ query;
       missingSlash := false; atRoot := false |}
  /\ forall h : Headers,
       setCachePolicy_of sc h ("." +:+ ext +:+ "?" +:+ query) = h.
Proof.
  intros Hn He Hd Hq Hqd. split.
  - apply (getProperties_file pre name (ext +:+ "?" +:+ query)); [assumption|..];
      rewrite occurs_app; change ("?" +:+ query) with (String "?" query);
      rewrite occurs_cons; [rewrite He, Hq | rewrite Hd, Hqd]; reflexivity.
  - intros h.
    assert (Q : occurs "?" ("." +:+ ext +:+ "?" +:+ query) = true).
    { change ("." +:+ ext +:+ "?" +:+ query) with (String "." (ext +:+ String "?" query)).
      rewrite occurs_cons, occurs_app, occurs_cons, Ascii.eqb_refl.
      rewrite orb_true_l, orb_true_r. apply orb_true_r. }
    apply setCachePolicy_outside; intros I;
      assert (N : occurs "?" ("." +:+ ext +:+ "?" +:+ query) = false)
        by (revert I; generalize ("." +:+ ext +:+ "?" +:+ query); intros x I;
            repeat (destruct I as [<-|I]; [reflexivity|]); destruct I);
      congruence.
Qed.

End MoreClassifier.

(* ===================================================================== *)
(** ** More of the handler *)
(* ===================================================================== *)

Section MoreHandler.
Import Worker.

Variable sc : Script.
Variable URL_new : string -> JsError + URL.
Variable store : AssetStore.
Variable event : FetchEvent.

(** X9. A file requested with a query string gets no [Cache-Control] from
    either script, whatever its extension: the extension the classifier
    cuts is [.ext?query]. *)
Theorem query_string_defeats_the_cache_policy
    (pre name ext query : string) (page : Response) :
  url (request event) = pre +:+ "/" +:+ name +:+ "." +:+ ext +:+ "?" +:+ query ->
  occurs "/" name = false ->
  occurs "/" ext = false -> occurs "." ext = false ->
  occurs "/" query = false -> occurs "." query = false ->
  store event no_options = inr page ->
  fileExtension (getProperties (url (request event))) = "." +:+ ext +:+ "?" +:+ query
  /\ exists r,
       snd (run store (handleEvent_of sc URL_new event)) = inr r
       /\ headers r = securityHeaders (headers page)
       /\ Headers_get (headers r) "Cache-Control"
          = Headers_get (headers page) "Cache-Control".
Proof.
  intros U Hn He Hd Hq Hqd Hpage.
  destruct (query_string_in_extension sc pre name ext query Hn He Hd Hq Hqd) as [G P].
  rewrite <- U in G. rewrite G. split; [reflexivity|].
  rewrite run_script. unfold outcome. rewrite G. cbn [missingSlash isFile fileExtension].
  rewrite Hpage. eexists. split; [reflexivity|].
  unfold served. cbn [headers with_headers]. rewrite P.
  split; [reflexivity|].
  apply securityHeaders_frame. vm_compute. intuition discriminate.
Qed.


(** X11. On the success path the response is the asset in status, status
    text and body, fetched once, and in every header but the six this layer
    may write. *)
Theorem success_response_keeps_the_asset (page : Response) :
  missingSlash (getProperties (url (request event))) = false ->
  store event no_options = inr page ->
  exists r,
    run store (handleEvent_of sc URL_new event) = ([(event, no_options)], inr r)
    /\ status r = status page
    /\ statusText r = statusText page
    /\ body r = body page
    /\ forall name,
         ~ In (toLowerCase name) written_headers ->
         Headers_get (headers r) name = Headers_get (headers page) name.
Proof.
  intros M Hpage. rewrite run_script. unfold outcome. rewrite M, Hpage.
  eexists. split; [reflexivity|]. repeat (split; [reflexivity|]).
  intros name N. unfold served. cbn [headers with_headers].
  assert (N5 : ~ In (toLowerCase name)
                 ["x-xss-protection"; "x-content-type-options"; "x-frame-options";
                  "referrer-policy"; "feature-policy"]).
  { intros I. apply N. unfold written_headers. simpl in *. tauto. }
  assert (NC : toLowerCase "Cache-Control" <> toLowerCase name).
  { intros E. apply N. rewrite <- E. vm_compute. tauto. }
  destruct (isFile _).
  - rewrite setCachePolicy_frame by exact NC. now apply securityHeaders_frame.
  - now apply securityHeaders_frame.
Qed.

(** X12. The handler fetches at most twice, it fetches nothing exactly on
    the redirect branch, and its promise rejects only there, with what
    [new URL] threw. *)
Theorem handler_fetches_at_most_twice :
  (length (fst (run store (handleEvent_of sc URL_new event))) <= 2)%nat
  /\ (fst (run store (handleEvent_of sc URL_new event)) = []
      <-> missingSlash (getProperties (url (request event))) = true)
  /\ forall thrown,
       snd (run store (handleEvent_of sc URL_new event)) = inl thrown ->
       missingSlash (getProperties (url (request event))) = true
       /\ URL_new (url (request event) +:+ "/") = inl thrown.
Proof.
  rewrite run_script. unfold outcome.
  destruct (missingSlash _).
  - cbn [fst snd length]. split; [lia|]. split; [tauto|].
    intros thrown H. split; [reflexivity|].
    destruct (URL_new _); congruence.
  - destruct (store event no_options); cbn [fst snd length];
      (split; [lia|]); (split; [split; discriminate|]); discriminate.
Qed.

(** X13. Neither [setCachePolicy] changes a header other than
    [Cache-Control], and calling it twice is calling it once. *)
Theorem setCachePolicy_writes_cache_control_only (h : Headers) (ext : string) :
  (forall name,
      toLowerCase name <> "cache-control" ->
      Headers_get (setCachePolicy_of sc h ext) name = Headers_get h name)
  /\ setCachePolicy_of sc (setCachePolicy_of sc h ext) ext = setCachePolicy_of sc h ext.
Proof.
  split.
  - intros name N. apply setCachePolicy_frame. intros E. apply N. now rewrite <- E.
  - destruct sc; cbn [setCachePolicy_of];
      unfold Worker.setCachePolicy, WorkersSite.setCachePolicy, Headers_set;
      repeat match goal with |- context [includes ?l ?x] => destruct (includes l x) end;
      try reflexivity; apply insert_insert_eq.
Qed.

(** X14. In the script with [getProperties], a file of the short-term table
    that the store has is served with the week-long directive. *)
Theorem short_term_file_is_served_with_cache_control (page : Response) :
  isFile (getProperties (url (request event))) = true ->
  In (fileExtension (getProperties (url (request event)))) [".ico"; ".json"] ->
  store event no_options = inr page ->
  exists r,
    run store (Worker.handleEvent URL_new event) = ([(event, no_options)], inr r)
    /\ Headers_get (headers r) "Cache-Control" = Some "max-age=604800, public".
Proof.
  intros F I Hpage. rewrite run_Worker. unfold outcome.
  destruct (getProperties_classification (url (request event))) as [| | |ext Hext];
    try discriminate F.
  cbn [missingSlash isFile fileExtension] in *. rewrite Hpage.
  eexists. split; [reflexivity|].
  cbn [headers served with_headers]. unfold setCachePolicy.
  assert (N : includes longTermCache ext = false).
  { simpl in I. destruct I as [<-|[<-|[]]]; reflexivity. }
  rewrite N. apply includes_In in I. unfold shortTermCache. rewrite I.
  apply Headers_get_set_eq.
Qed.

(** X15. In [workers-site/index.js], a file of its one table that the store
    has is served with ["max-age=31536000"]; every other request that the
    store has is served with the asset's own [Cache-Control], the images and
    [.ico], [.json] of the other script's tables among them. *)
Theorem workers_site_cache_control_on_success (page : Response) :
  missingSlash (getProperties (url (request event))) = false ->
  store event no_options = inr page ->
  exists r,
    snd (run store (WorkersSite.handleEvent URL_new event)) = inr r
    /\ (isFile (getProperties (url (request event))) = true ->
        In (fileExtension (getProperties (url (request event))))
           [".css"; ".ttf"; ".woff"; ".woff2"; ".js"] ->
        Headers_get (headers r) "Cache-Control" = Some "max-age=31536000")
    /\ (isFile (getProperties (url (request event))) = false
        \/ ~ In (fileExtension (getProperties (url (request event))))
                [".css"; ".ttf"; ".woff"; ".woff2"; ".js"] ->
        Headers_get (headers r) "Cache-Control"
        = Headers_get (headers page) "Cache-Control").
Proof.
  intros M Hpage. rewrite run_WorkersSite. unfold outcome. rewrite M, Hpage.
  eexists. split; [reflexivity|].
  unfold served. cbn [headers with_headers]. unfold WorkersSite.setCachePolicy.
  split.
  - intros -> I. apply includes_In in I. unfold WorkersSite.safeToCache. rewrite I.
    apply Headers_get_set_eq.
  - intros H.
    assert (E : (if isFile (getProperties (url (request event)))
                 then if includes WorkersSite.safeToCache
                           (fileExtension (getProperties (url (request event))))
                      then Headers_set (securityHeaders (headers page))
                             "Cache-Control" "max-age=31536000"
                      else securityHeaders (headers page)
                 else securityHeaders (headers page))
                = securityHeaders (headers page)).
    { destruct H as [-> | N]; [reflexivity|].
      apply includes_not_In in N. unfold WorkersSite.safeToCache. rewrite N.
      now destruct (isFile _). }
    rewrite E. apply securityHeaders_frame. vm_compute. intuition discriminate.
Qed.

End MoreHandler.

(* ===================================================================== *)
(** ** The listener *)
(* ===================================================================== *)

Section ListenerFacts.
Import Worker Listener.

Variable sc : Script.
Variable URL_new : string -> JsError + URL.
Variable event : FetchEvent.

(** X16. The listener gives the platform the promise of [handleEvent] and
    nothing else. When [respondWith] throws, it throws again in the catch
    clause, so the ["Internal Error"] response is never the response, and the
    listener throws; it does so exactly when the event is not being
    dispatched or has been responded to. *)
Theorem listener_responds_with_the_handler (st : Dispatch) :
  (forall st',
      onFetch_of sc URL_new event st = inr st' ->
      responded st' = Some (handleEvent_of sc URL_new event))
  /\ (dispatching st = true /\ respondWithEntered st = false <->
      exists st', onFetch_of sc URL_new event st = inr st')
  /\ (dispatching st = false \/ respondWithEntered st = true <->
      onFetch_of sc URL_new event st = inl InvalidStateError).
Proof.
  destruct st as [d entered r].
  destruct sc; cbn [onFetch_of handleEvent_of]; unfold onFetch, respondWith;
    cbn [dispatching respondWithEntered Worker.DEBUG WorkersSite.DEBUG];
    destruct d, entered; cbn [negb orb];
    (split; [intros st' H; inversion H; reflexivity || discriminate H|]);
    (split; split);
    try (intros [? ?]; discriminate);
    try (intros [? ?]; congruence);
    try (intros [?|?]; discriminate);
    try (intros [?|?]; reflexivity);
    try (intros _; eexists; reflexivity);
    try (intros _; split; reflexivity);
    try (intros _; left; reflexivity);
    try (intros _; right; reflexivity);
    try discriminate.
Qed.

(** X17. A rejection of the handler is not caught by the listener: on the
    redirect branch with a [new URL] that throws, the listener returns, and
    the promise it gave the platform rejects with what was thrown. *)
Theorem rejection_passes_the_listener (store : AssetStore) (thrown : JsError) :
  missingSlash (getProperties (url (request event))) = true ->
  URL_new (url (request event) +:+ "/") = inl thrown ->
  exists promise,
    onFetch_of sc URL_new event fresh
    = inr {| dispatching := true; respondWithEntered := true;
             responded := Some promise |}
    /\ run store promise = ([], inl thrown).
Proof.
  intros M H. exists (handleEvent_of sc URL_new event). split.
  - destruct sc; reflexivity.
  - rewrite run_script. unfold outcome. now rewrite M, H.
Qed.

End ListenerFacts.

(* ===================================================================== *)
(** ** The claims at sample requests *)
(* ===================================================================== *)



(** [GET https://site/style.css] is served with the five security headers. *)
Lemma C5_witness_style_css :
  exists r,
    snd (run site_store (Worker.handleEvent sample_URL_new (GET "https://site/style.css")))
    = inr r
    /\ Headers_get (headers r) "X-XSS-Protection" = Some "1; mode=block"
    /\ Headers_get (headers r) "X-Content-Type-Options" = Some "nosniff"
    /\ Headers_get (headers r) "X-Frame-Options" = Some "DENY"
    /\ Headers_get (headers r) "Referrer-Policy" = Some "unsafe-url"
    /\ Headers_get (headers r) "Feature-Policy" = Some "none".
Proof.
  apply (C5_security_headers_on_success getProperties_script sample_URL_new site_store
           (GET "https://site/style.css") (asset "body{}"));
    reflexivity.
Defined.

(** [GET https://site/] is served without a [Cache-Control] of this layer. *)
Lemma C6_witness_front_page :
  exists r,
    snd (run site_store (Worker.handleEvent sample_URL_new (GET "https://site/")))
    = inr r
    /\ headers r = securityHeaders (headers (asset "<html></html>"))
    /\ Headers_get (headers r) "Cache-Control" = None.
Proof.
  apply (C6_no_cache_control_outside_tables getProperties_script sample_URL_new site_store
           (GET "https://site/") (asset "<html></html>"));
    [reflexivity | reflexivity | left; reflexivity].
Defined.

(** [GET https://site/missing.html] against the store without a 404 page:
    two fetches, then a 500 with the message of the first error. *)
Lemma C2_witness_missing_html :
  exists r,
    snd (run bare_store (Worker.handleEvent sample_URL_new (GET "https://site/missing.html")))
    = inr r
    /\ status r = 500
    /\ body r = Some "could not find the asset".
Proof.
  destruct (C2_fallback_to_404_then_500 getProperties_script sample_URL_new bare_store
              (GET "https://site/missing.html") NotFoundError eq_refl eq_refl)
    as (mapper & _ & _ & _ & H500).
  destruct (H500 NotFoundError eq_refl) as (r & Hr & Hstatus & Hbody & _).
  exists r. split; [exact Hr|]. split; [exact Hstatus|].
  apply Hbody; [reflexivity | discriminate].
Defined.

(** Two runs of [GET https://site/missing.html] against the store with a 404
    page. *)
Lemma C9_witness_missing_html :
  fst (run site_store (WorkersSite.handleEvent sample_URL_new (GET "https://site/missing.html")))
  = fst (run site_store (WorkersSite.handleEvent sample_URL_new (GET "https://site/missing.html")))
  /\ snd (run site_store (WorkersSite.handleEvent sample_URL_new (GET "https://site/missing.html")))
     = snd (run site_store (WorkersSite.handleEvent sample_URL_new (GET "https://site/missing.html"))).
Proof.
  apply (C9_handler_is_deterministic workers_site_script sample_URL_new site_store
           (GET "https://site/missing.html") (GET "https://site/missing.html") site_store);
    [reflexivity | reflexivity | apply run_runs | apply run_runs].
Defined.

(** [https://site/about] has a slash in it, and is not at root. *)
Lemma C10_witness_about :
  Worker.atRoot (Worker.getProperties "https://site/about") = false.
Proof.
  exact (proj1 (C10_slash_means_not_at_root getProperties_script sample_URL_new site_store
                  (GET "https://site/about") eq_refl)).
Defined.

(** Two more scenarios, run. *)
Example scenario_missing_html :
  exists r,
    snd (run site_store (Worker.handleEvent sample_URL_new (GET "https://site/missing.html")))
    = inr r
    /\ status r = 404
    /\ body r = Some "not here"
    /\ Headers_get (headers r) "X-Frame-Options" = None.
Proof. eexists. repeat split. Qed.

Example scenario_style_css_workers_site :
  exists r,
    snd (run site_store (WorkersSite.handleEvent sample_URL_new (GET "https://site/style.css")))
    = inr r
    /\ Headers_get (headers r) "Cache-Control" = Some "max-age=31536000".
Proof. eexists. repeat split. Qed.


(** [GET https://site/] is answered alike by the two scripts. *)
Lemma scripts_agree_on_front_page :
  run site_store (Worker.handleEvent sample_URL_new (GET "https://site/"))
  = run site_store (WorkersSite.handleEvent sample_URL_new (GET "https://site/")).
Proof.
  apply (scripts_differ_in_cache_policy_only sample_URL_new site_store (GET "https://site/")).
  left; reflexivity.
Defined.

(** [archive.tar.gz], with no slash, is at root and not a file. *)
Lemma archive_tar_gz_is_at_root :
  Worker.getProperties "archive.tar.gz"
  = {| Worker.isFile := false; Worker.fileExtension := "";
       Worker.missingSlash := false; Worker.atRoot := true |}.
Proof. apply (no_slash_is_at_root "archive.tar.gz"). reflexivity. Defined.

(** [GET https://site/style.css], the scenario of the specification. *)
Lemma style_css_is_served_with_cache_control :
  exists r,
    run site_store (Worker.handleEvent sample_URL_new (GET "https://site/style.css"))
    = ([(GET "https://site/style.css", no_options)], inr r)
    /\ status r = 200
    /\ body r = Some "body{}"
    /\ Headers_get (headers r) "Cache-Control" = Some "max-age=31536000, public".
Proof.
  apply (long_term_file_is_served_with_cache_control sample_URL_new site_store
           (GET "https://site/style.css") (asset "body{}"));
    [reflexivity | vm_compute; tauto | reflexivity].
Defined.

(** Two stores that differ away from the front page answer a run for it
    alike. *)
Lemma front_page_reads_two_fetches :
  run site_store (Worker.handleEvent sample_URL_new (GET "https://site/"))
  = run larger_store (Worker.handleEvent sample_URL_new (GET "https://site/")).
Proof.
  apply (handler_reads_the_store_at_two_fetches sample_URL_new site_store
           (GET "https://site/") getProperties_script larger_store); reflexivity.
Defined.

(** [a/b] is missing its slash, and [a/b/] is no URL for a parser that
    accepts nothing. *)
Lemma relative_url_rejects :
  run site_store (Worker.handleEvent throwing_URL_new (GET "a/b"))
  = ([], inl {| message := Some "Invalid URL"; toString := "TypeError: Invalid URL" |}).
Proof.
  apply (redirect_rejects_when_URL_throws throwing_URL_new site_store (GET "a/b")
           getProperties_script); reflexivity.
Defined.

(** [/docs/guide.pdf] is classified the same below any prefix. *)
Lemma guide_pdf_under_two_prefixes :
  Worker.getProperties ("https://site/docs" +:+ "/" +:+ "guide.pdf")
  = Worker.getProperties ("" +:+ "/" +:+ "guide.pdf").
Proof.
  apply (classification_depends_on_last_segment "https://site/docs" "" "guide.pdf").
  reflexivity.
Defined.

(** The extension of [/a/b.tar.gz] is the end of it. *)
Lemma tar_gz_is_a_dotted_suffix :
  exists stem rest,
    "/a/b.tar.gz" = stem +:+ Worker.fileExtension (Worker.getProperties "/a/b.tar.gz")
    /\ Worker.fileExtension (Worker.getProperties "/a/b.tar.gz") = "." +:+ rest
    /\ occurs "." rest = false
    /\ occurs "/" rest = false.
Proof. apply (extension_is_a_dotted_suffix "/a/b.tar.gz"). reflexivity. Defined.

(** [GET https://site/style.css?v=3] is served without a [Cache-Control]. *)
Lemma versioned_style_css_is_not_cached :
  Worker.fileExtension (Worker.getProperties "https://site/style.css?v=3") = ".css?v=3"
  /\ exists r,
       snd (run media_store
              (Worker.handleEvent sample_URL_new (GET "https://site/style.css?v=3")))
       = inr r
       /\ headers r = securityHeaders (headers (asset "body{}"))
       /\ Headers_get (headers r) "Cache-Control" = None.
Proof.
  apply (query_string_defeats_the_cache_policy getProperties_script sample_URL_new
           media_store (GET "https://site/style.css?v=3")
           "https://site" "style" "css" "v=3" (asset "body{}"));
    reflexivity.
Defined.


(** [GET https://site/logo.png] from [workers-site/index.js]: the asset, with
    its content type. *)
Lemma logo_png_keeps_the_asset :
  exists r,
    run media_store (WorkersSite.handleEvent sample_URL_new (GET "https://site/logo.png"))
    = ([(GET "https://site/logo.png", no_options)], inr r)
    /\ status r = 200
    /\ statusText r = "OK"
    /\ body r = Some "image"
    /\ forall name,
         ~ In (toLowerCase name) written_headers ->
         Headers_get (headers r) name = Headers_get (headers (asset "image")) name.
Proof.
  apply (success_response_keeps_the_asset workers_site_script sample_URL_new media_store
           (GET "https://site/logo.png") (asset "image"));
    reflexivity.
Defined.

(** [GET https://site/favicon.ico] is cached for a week. *)
Lemma favicon_is_served_with_cache_control :
  exists r,
    run media_store (Worker.handleEvent sample_URL_new (GET "https://site/favicon.ico"))
    = ([(GET "https://site/favicon.ico", no_options)], inr r)
    /\ Headers_get (headers r) "Cache-Control" = Some "max-age=604800, public".
Proof.
  apply (short_term_file_is_served_with_cache_control sample_URL_new media_store
           (GET "https://site/favicon.ico") (asset "icon"));
    [reflexivity | vm_compute; tauto | reflexivity].
Defined.

(** [GET https://site/logo.png] from [workers-site/index.js]: no
    [Cache-Control]. *)
Lemma logo_png_from_workers_site :
  exists r,
    snd (run media_store (WorkersSite.handleEvent sample_URL_new (GET "https://site/logo.png")))
    = inr r
    /\ Headers_get (headers r) "Cache-Control" = None.
Proof.
  destruct (workers_site_cache_control_on_success sample_URL_new media_store
              (GET "https://site/logo.png") (asset "image") eq_refl eq_refl)
    as (r & Hr & _ & Hnone).
  exists r. split; [exact Hr|].
  apply Hnone. right. vm_compute. intuition discriminate.
Defined.

(** [a/b] with a parser that accepts nothing: the listener returns, and the
    promise rejects. *)
Lemma relative_url_passes_the_listener :
  exists promise,
    onFetch_of getProperties_script throwing_URL_new (GET "a/b") fresh
    = inr {| Listener.dispatching := true; Listener.respondWithEntered := true;
             Listener.responded := Some promise |}
    /\ run site_store promise
       = ([], inl {| message := Some "Invalid URL"; toString := "TypeError: Invalid URL" |}).
Proof.
  apply (rejection_passes_the_listener getProperties_script throwing_URL_new
           (GET "a/b") site_store); reflexivity.
Defined.
